(** * Constant-product pool of [py/amm.py]: a shallow embedding

    [py/amm.py] defines the helper [divup] and the class [PartialAmm], a
    two-reserve constant-product pool whose methods quote and apply trades
    on Python's unbounded integers.

    - Python [int] is [Z]; [//] is floor division, which is [Z.div] on a
      non-zero divisor, and raises [ZeroDivisionError] on a zero divisor.
    - A method is a computation in the monad [M]: it receives the object
      and returns an outcome ([Ok v] or [Raise e]) together with the
      object as the call leaves it.  An exception keeps the attribute
      writes made before it, as in Python.
    - [price0] divides two integers with [/], which yields a binary64
      float: the exact quotient rounded to the nearest binary64 value,
      ties to even, with [OverflowError] when the rounded quotient is
      beyond the binary64 range.  A float is kept as its sign, integer
      mantissa and exponent. *)

From Stdlib Require Import ZArith QArith Qround Qpower String Lia Lqa
  DecimalString.

Local Open Scope Z_scope.

(** ** Exceptions and outcomes *)

Inductive exn : Type :=
| RuntimeError (msg : string)
| ZeroDivisionError
| OverflowError.

Inductive result (A : Type) : Type :=
| Ok (a : A)
| Raise (e : exn).

Arguments Ok {A} a.
Arguments Raise {A} e.

(** [str(n)] for an [int]: decimal digits, a leading [-] when negative. *)
Definition str (n : Z) : string := NilZero.string_of_int (Z.to_int n).

(** [a // b] on integers. *)
Definition floordiv (a b : Z) : result Z :=
  if b =? 0 then Raise ZeroDivisionError else Ok (a / b).

(** ** Binary64 floats *)

(** A finite binary64 value [(-1)^f_neg * f_mant * 2^f_exp], in canonical
    form: [2^52 <= f_mant < 2^53] with [-1074 <= f_exp <= 971] for a normal
    number, [f_mant < 2^52] with [f_exp = -1074] for a subnormal one and
    for the two zeros. *)
Record float : Type := mkFloat {
  f_neg : bool;
  f_mant : Z;
  f_exp : Z
}.

Definition pow2 (e : Z) : Q := (2 ^ e)%Q.

Definition float_value (x : float) : Q :=
  ((if f_neg x then - inject_Z (f_mant x) else inject_Z (f_mant x))
   * pow2 (f_exp x))%Q.


(** Rounding to the nearest integer, ties to even. *)
Definition rne (q : Q) : Z :=
  let f := Qfloor q in
  match (q - inject_Z f ?= 1 # 2)%Q with
  | Lt => f
  | Gt => f + 1
  | Eq => if Z.even f then f else f + 1
  end.

(** For [x > 0], the exponent [e] with [2^e <= x < 2^(e+1)]. *)
Definition binade (x : Q) : Z :=
  let e := Z.log2 (Qnum x) - Z.log2 (Z.pos (Qden x)) in
  if Qle_bool (pow2 e) x then e else e - 1.

(** For [x > 0], the mantissa and exponent of the binary64 value nearest to
    [x]: 53 significant bits, exponent no lower than [-1074], and a carry
    when the mantissa rounds up to [2^53]. *)
Definition round_binary64 (x : Q) : Z * Z :=
  let e := Z.max (binade x - 52) (-1074) in
  let m := rne (x / pow2 e) in
  if m =? 2 ^ 53 then (2 ^ 52, e + 1) else (m, e).


(** [a / b] on integers: the correctly rounded quotient, signed as the
    operands give it (a zero numerator counts as positive). *)
Definition truediv (a b : Z) : result float :=
  if b =? 0 then Raise ZeroDivisionError
  else
    let neg := xorb (a <? 0) (b <? 0) in
    if a =? 0 then Ok {| f_neg := neg; f_mant := 0; f_exp := -1074 |}
    else
      let (m, e) :=
        round_binary64 (inject_Z (Z.abs a) / inject_Z (Z.abs b)) in
      if 971 <? e then Raise OverflowError
      else Ok {| f_neg := neg; f_mant := m; f_exp := e |}.

(** ** [divup] *)

Definition divup (n d : Z) : result Z := floordiv (n + (d - 1)) d.

(** ** The pool object *)

Record PartialAmm : Type := mkPartialAmm {
  id : string;
  r0 : Z;
  r1 : Z
}.

Definition set_r0 (v : Z) (s : PartialAmm) : PartialAmm :=
  {| id := id s; r0 := v; r1 := r1 s |}.

Definition set_r1 (v : Z) (s : PartialAmm) : PartialAmm :=
  {| id := id s; r0 := r0 s; r1 := v |}.

(** [__init__]: [uuid] stands for [str(uuid4())], of which the last four
    characters are kept. *)
Definition init (uuid : string) (r0 r1 : Z) : PartialAmm :=
  {| id := substring (length uuid - 4) 4 uuid; r0 := r0; r1 := r1 |}.

(** The product [self.r0 * self.r1], written [k] in the source. *)
Definition k (s : PartialAmm) : Z := r0 s * r1 s.

(** ** Methods as stateful, fallible computations *)

Definition M (A : Type) : Type := PartialAmm -> result A * PartialAmm.

Definition ret {A : Type} (a : A) : M A := fun s => (Ok a, s).

Definition bind {A B : Type} (c : M A) (f : A -> M B) : M B :=
  fun s =>
    match c s with
    | (Ok a, s') => f a s'
    | (Raise e, s') => (Raise e, s')
    end.

Definition raise {A : Type} (e : exn) : M A := fun s => (Raise e, s).

(** An outcome computed without the object. *)
Definition lift {A : Type} (r : result A) : M A := fun s => (r, s).

(** Attribute read and attribute write. *)
Definition get {A : Type} (f : PartialAmm -> A) : M A := fun s => (Ok (f s), s).
Definition put (upd : PartialAmm -> PartialAmm) : M unit :=
  fun s => (Ok tt, upd s).

Declare Scope amm_scope.
Delimit Scope amm_scope with amm.
Notation "x <- c ;; f" := (bind c (fun x => f))
  (at level 61, c at next level, right associativity) : amm_scope.
Notation "c ;; f" := (bind c (fun _ => f))
  (at level 61, right associativity) : amm_scope.
Local Open Scope amm_scope.
Local Open Scope string_scope.

Definition quoteBuy0 (a0 : Z) : M Z :=
  self_r0 <- get r0 ;;
  if a0 >=? self_r0 then
    raise (RuntimeError ("a0 (" ++ str a0 ++ ") >= r0 (" ++ str self_r0 ++ ")"))
  else
    self_r0 <- get r0 ;;
    self_r1 <- get r1 ;;
    let k := self_r0 * self_r1 in
    self_r0 <- get r0 ;;
    c <- lift (divup k (self_r0 - a0)) ;;
    self_r1 <- get r1 ;;
    let a1 := c - self_r1 in
    ret a1.

Definition buy0 (a0 : Z) : M Z :=
  a1 <- quoteBuy0 a0 ;;
  self_r0 <- get r0 ;;
  put (set_r0 (self_r0 - a0)) ;;
  self_r1 <- get r1 ;;
  put (set_r1 (self_r1 + a1)) ;;
  ret a1.

Definition quoteSell0 (a0 : Z) : M Z :=
  self_r0 <- get r0 ;;
  self_r1 <- get r1 ;;
  let k := self_r0 * self_r1 in
  self_r1 <- get r1 ;;
  self_r0 <- get r0 ;;
  q <- lift (floordiv k (self_r0 + a0)) ;;
  let a1 := self_r1 - q in
  self_r1 <- get r1 ;;
  if a1 >=? self_r1 then
    raise (RuntimeError ("a1 (" ++ str a1 ++ ") >= r1 (" ++ str self_r1 ++ ")"))
  else
    ret a1.

Definition sell0 (a0 : Z) : M Z :=
  a1 <- quoteSell0 a0 ;;
  self_r0 <- get r0 ;;
  put (set_r0 (self_r0 + a0)) ;;
  self_r1 <- get r1 ;;
  put (set_r1 (self_r1 - a1)) ;;
  ret a1.

Definition price0 : M float :=
  self_r1 <- get r1 ;;
  self_r0 <- get r0 ;;
  lift (truediv self_r1 self_r0).

Definition donate0 (a0 : Z) : M float :=
  self_r0 <- get r0 ;;
  put (set_r0 (self_r0 + a0)) ;;
  price0.

(** ** The error conditions named by the design *)

(** [quoteBuy0]'s guard [a0 >= self.r0]. *)
Definition InsufficientReserve (e : exn) : Prop :=
  exists a0 r0 : Z,
    e = RuntimeError ("a0 (" ++ str a0 ++ ") >= r0 (" ++ str r0 ++ ")").

(** [quoteSell0]'s guard [a1 >= self.r1]. *)
Definition ReserveExhausted (e : exn) : Prop :=
  exists a1 r1 : Z,
    e = RuntimeError ("a1 (" ++ str a1 ++ ") >= r1 (" ++ str r1 ++ ")").

(** ** Mathematical rounding, to state the contracts against *)

Definition ceil_ratio (n d : Z) : Z := Qceiling (inject_Z n / inject_Z d).
Definition floor_ratio (n d : Z) : Z := Qfloor (inject_Z n / inject_Z d).

(** ** Sequences of trades *)

(** One call of a trading method with any amount, whatever its outcome:
    the pool after the call. *)
Inductive trade : PartialAmm -> PartialAmm -> Prop :=
| trade_buy0 (s : PartialAmm) (a0 : Z) : trade s (snd (buy0 a0 s))
| trade_sell0 (s : PartialAmm) (a0 : Z) : trade s (snd (sell0 a0 s)).

Inductive trades : PartialAmm -> PartialAmm -> Prop :=
| trades_nil (s : PartialAmm) : trades s s
| trades_cons (s s' s'' : PartialAmm) :
    trade s s' -> trades s' s'' -> trades s s''.

(** ** Runs of the model *)

Example init_keeps_last_four :
  init "6f1c2b9e-8d4a-4c57-9b1e-3a7d5e0f0123" 100 10 =
  {| id := "0123"; r0 := 100; r1 := 10 |}.
Proof. reflexivity. Qed.

Example buy0_90 :
  buy0 90 (init "0123" 10000 10000) =
  (Ok 91, {| id := "0123"; r0 := 9910; r1 := 10091 |}).
Proof. reflexivity. Qed.

Example quoteBuy0_refused :
  quoteBuy0 10 (init "0123" 10 5) =
  (Raise (RuntimeError "a0 (10) >= r0 (10)"), init "0123" 10 5).
Proof. reflexivity. Qed.

Example sell0_refused :
  sell0 1 (init "0123" 10 1) =
  (Raise (RuntimeError "a1 (1) >= r1 (1)"), init "0123" 10 1).
Proof. reflexivity. Qed.

(** A sale of [- r0] divides by zero before any write. *)
Example sell0_zero_divisor :
  sell0 (-10) (init "0123" 10 5) = (Raise ZeroDivisionError, init "0123" 10 5).
Proof. reflexivity. Qed.

(** [donate0] writes [r0] first: a donation of [- r0] raises in [price0]
    with the reserve already emptied. *)
Example donate0_zero_divisor :
  donate0 (-10) (init "0123" 10 5) =
  (Raise ZeroDivisionError, {| id := "0123"; r0 := 0; r1 := 5 |}).
Proof. reflexivity. Qed.

(** [1 / 3] is the float [0x1.5555555555555p-2]. *)
Example truediv_one_third :
  truediv 1 3 =
  Ok {| f_neg := false; f_mant := 6004799503160661; f_exp := -54 |}.
Proof. vm_compute. reflexivity. Qed.

(** A tie goes to the even mantissa: [(2^54 + 1) / 2^54] is [1.0] and
    [(2^54 + 3) / 2^54] is the float after [1.0]. *)
Example truediv_ties_to_even :
  truediv (2 ^ 54 + 1) (2 ^ 54) =
  Ok {| f_neg := false; f_mant := 2 ^ 52; f_exp := -52 |} /\
  truediv (2 ^ 54 + 3) (2 ^ 54) =
  Ok {| f_neg := false; f_mant := 2 ^ 52 + 1; f_exp := -52 |}.
Proof. split; vm_compute; reflexivity. Qed.

(** The largest float, and the first quotient that overflows. *)
Example truediv_range :
  truediv (2 ^ 1024 - 2 ^ 970 - 1) 1 =
  Ok {| f_neg := false; f_mant := 2 ^ 53 - 1; f_exp := 971 |} /\
  truediv (2 ^ 1024 - 2 ^ 970) 1 = Raise OverflowError.
Proof. split; vm_compute; reflexivity. Qed.

(** Small quotients are subnormal or round to a signed zero. *)
Example truediv_small :
  truediv 3 (2 ^ 1076) =
  Ok {| f_neg := false; f_mant := 1; f_exp := -1074 |} /\
  truediv (-1) (2 ^ 1075) =
  Ok {| f_neg := true; f_mant := 0; f_exp := -1074 |} /\
  truediv 0 (-5) = Ok {| f_neg := true; f_mant := 0; f_exp := -1074 |}.
Proof. split; [|split]; vm_compute; reflexivity. Qed.

(** ** Arithmetic of the two roundings *)

Section Rounding.

Variables n d : Z.
Hypothesis d_pos : 0 < d.

(** Floor division brackets the numerator from below. *)
Lemma floor_bracket : d * (n / d) <= n < d * (n / d + 1).
Proof.
  pose proof (Z.div_mod n d ltac:(lia)).
  pose proof (Z.mod_pos_bound n d d_pos).
  lia.
Qed.

(** The quotient computed by [divup] brackets the numerator from above. *)
Lemma divup_bracket :
  d * ((n + (d - 1)) / d - 1) < n <= d * ((n + (d - 1)) / d).
Proof.
  pose proof (Z.div_mod (n + (d - 1)) d ltac:(lia)).
  pose proof (Z.mod_pos_bound (n + (d - 1)) d d_pos).
  lia.
Qed.

Lemma floor_ratio_div : floor_ratio n d = n / d.
Proof. unfold floor_ratio. symmetry. apply Zdiv_Qdiv. Qed.

Lemma ceil_ratio_opp : ceil_ratio n d = - ((- n) / d).
Proof.
  unfold ceil_ratio, Qceiling. f_equal.
  rewrite (Zdiv_Qdiv (- n) d).
  apply Qfloor_comp.
  rewrite inject_Z_opp. unfold Qdiv. ring.
Qed.

(** An integer that brackets [n] from above on the grid of [d] is the
    ceiling of [n / d]. *)
Lemma ceil_ratio_unique (c : Z) :
  d * (c - 1) < n <= d * c -> ceil_ratio n d = c.
Proof.
  intros Hc. rewrite ceil_ratio_opp.
  pose proof (Z.div_mod (- n) d ltac:(lia)).
  pose proof (Z.mod_pos_bound (- n) d d_pos).
  nia.
Qed.

Lemma ceil_ratio_divup : ceil_ratio n d = (n + (d - 1)) / d.
Proof. apply ceil_ratio_unique, divup_bracket. Qed.

Lemma divup_ok : divup n d = Ok (ceil_ratio n d).
Proof.
  unfold divup, floordiv.
  destruct (Z.eqb_spec d 0); [lia|].
  now rewrite ceil_ratio_divup.
Qed.

Lemma floordiv_ok : floordiv n d = Ok (floor_ratio n d).
Proof.
  unfold floordiv.
  destruct (Z.eqb_spec d 0); [lia|].
  now rewrite floor_ratio_div.
Qed.

(** Floor and truncation agree on a non-negative numerator, and both are
    non-positive on a negative one. *)
Lemma quot_div_nonneg : 0 <= n -> n ÷ d = n / d.
Proof. intros Hn. apply Z.quot_div_nonneg; lia. Qed.

Lemma quot_div_neg : n < 0 -> n / d < 0 /\ n ÷ d <= 0.
Proof.
  intros Hn. split.
  - apply Z.div_lt_upper_bound; lia.
  - rewrite <- (Z.opp_involutive n), Z.quot_opp_l by lia.
    pose proof (Z.quot_pos (- n) d ltac:(lia) d_pos). lia.
Qed.

End Rounding.

(** ** Rounding to binary64 *)

Section Binary64.

Local Open Scope Q_scope.




Lemma pow2_lt (a b : Z) : (a < b)%Z -> pow2 a < pow2 b.
Proof. intros H. apply Qpower_lt_compat_l; [exact H|reflexivity]. Qed.





















(** The quotient of two positive integers never divides by zero; it is a
    float or overflows. *)
Lemma truediv_nonzero (a b : Z) :
  (b <> 0)%Z -> truediv a b <> Raise ZeroDivisionError.
Proof.
  intros Hb. unfold truediv.
  destruct (Z.eqb_spec b 0); [contradiction|].
  destruct (a =? 0)%Z; [discriminate|].
  destruct (round_binary64 _) as [m e].
  destruct (971 <? e)%Z; discriminate.
Qed.




End Binary64.

(** ** The methods, evaluated *)

Lemma quoteBuy0_eq (a0 : Z) (s : PartialAmm) :
  quoteBuy0 a0 s =
  (if a0 >=? r0 s then
     Raise (RuntimeError ("a0 (" ++ str a0 ++ ") >= r0 (" ++ str (r0 s) ++ ")"))
   else
     match divup (r0 s * r1 s) (r0 s - a0) with
     | Ok c => Ok (c - r1 s)
     | Raise e => Raise e
     end, s).
Proof.
  unfold quoteBuy0, bind, get, raise, lift, ret.
  destruct (a0 >=? r0 s); [reflexivity|].
  destruct (divup _ _); reflexivity.
Qed.

Lemma quoteSell0_eq (a0 : Z) (s : PartialAmm) :
  quoteSell0 a0 s =
  (match floordiv (r0 s * r1 s) (r0 s + a0) with
   | Ok q =>
       if r1 s - q >=? r1 s then
         Raise (RuntimeError
                  ("a1 (" ++ str (r1 s - q) ++ ") >= r1 (" ++ str (r1 s) ++ ")"))
       else Ok (r1 s - q)
   | Raise e => Raise e
   end, s).
Proof.
  unfold quoteSell0, bind, get, raise, lift, ret.
  destruct (floordiv _ _); [|reflexivity].
  destruct (_ >=? _); reflexivity.
Qed.

(** The quotes only read the object. *)
Lemma quoteBuy0_pure (a0 : Z) (s : PartialAmm) : snd (quoteBuy0 a0 s) = s.
Proof. now rewrite quoteBuy0_eq. Qed.

Lemma quoteSell0_pure (a0 : Z) (s : PartialAmm) : snd (quoteSell0 a0 s) = s.
Proof. now rewrite quoteSell0_eq. Qed.

Lemma buy0_eq (a0 : Z) (s : PartialAmm) :
  buy0 a0 s =
  match fst (quoteBuy0 a0 s) with
  | Ok a1 => (Ok a1, {| id := id s; r0 := r0 s - a0; r1 := r1 s + a1 |})
  | Raise e => (Raise e, s)
  end.
Proof.
  unfold buy0, bind. rewrite quoteBuy0_eq. cbn [fst].
  destruct (if a0 >=? r0 s then _ else _); reflexivity.
Qed.

Lemma sell0_eq (a0 : Z) (s : PartialAmm) :
  sell0 a0 s =
  match fst (quoteSell0 a0 s) with
  | Ok a1 => (Ok a1, {| id := id s; r0 := r0 s + a0; r1 := r1 s - a1 |})
  | Raise e => (Raise e, s)
  end.
Proof.
  unfold sell0, bind. rewrite quoteSell0_eq. cbn [fst].
  destruct (match floordiv _ _ with Ok _ => _ | Raise _ => _ end); reflexivity.
Qed.

(** A buy below the reserve is quoted at the ceiling of [k / (r0 - a0)]. *)
Lemma quoteBuy0_below (a0 : Z) (s : PartialAmm) :
  a0 < r0 s ->
  quoteBuy0 a0 s = (Ok (ceil_ratio (k s) (r0 s - a0) - r1 s), s).
Proof.
  intros Ha. rewrite quoteBuy0_eq.
  destruct (Z.geb_spec a0 (r0 s)); [lia|].
  rewrite divup_ok by lia. reflexivity.
Qed.

Lemma quoteBuy0_at_or_above (a0 : Z) (s : PartialAmm) :
  r0 s <= a0 ->
  quoteBuy0 a0 s =
  (Raise (RuntimeError ("a0 (" ++ str a0 ++ ") >= r0 (" ++ str (r0 s) ++ ")")),
   s).
Proof.
  intros Ha. rewrite quoteBuy0_eq.
  destruct (Z.geb_spec a0 (r0 s)); [reflexivity|lia].
Qed.

(** A sale into a pool whose asset-0 reserve stays positive never divides
    by zero: it is quoted at [r1 - floor(k / (r0 + a0))] or refused. *)
Lemma quoteSell0_pos (a0 : Z) (s : PartialAmm) :
  0 < r0 s + a0 ->
  quoteSell0 a0 s =
  (let a1 := r1 s - floor_ratio (k s) (r0 s + a0) in
   if a1 >=? r1 s then
     Raise (RuntimeError
              ("a1 (" ++ str a1 ++ ") >= r1 (" ++ str (r1 s) ++ ")"))
   else Ok a1, s).
Proof.
  intros Hd. rewrite quoteSell0_eq, floordiv_ok by lia. reflexivity.
Qed.

(** ** [divup] is ceiling division *)

(** C6. On a non-negative numerator [n] and a strictly positive denominator
    [d], [divup n d] returns the ceiling of [n / d]: the integer [c] with
    [c - 1 < n / d <= c] over the rationals, equivalently
    [d * (c - 1) < n <= d * c].  In particular [divup 10 5] is [2] and
    [divup 11 5] is [3]. *)
Theorem divup_ceiling (n d : Z) (Hn : 0 <= n) (Hd : 0 < d) :
  divup n d = Ok (ceil_ratio n d) /\
  (inject_Z (ceil_ratio n d - 1) < inject_Z n / inject_Z d)%Q /\
  (inject_Z n / inject_Z d <= inject_Z (ceil_ratio n d))%Q /\
  d * (ceil_ratio n d - 1) < n <= d * ceil_ratio n d /\
  divup 10 5 = Ok 2 /\
  divup 11 5 = Ok 3.
Proof.
  split; [now apply divup_ok|].
  split; [apply Qceiling_lt|].
  split; [apply Qle_ceiling|].
  split; [|split; reflexivity].
  rewrite ceil_ratio_divup by assumption.
  now apply divup_bracket.
Qed.

Lemma divup_ceiling_witness :
  0 <= 11 /\ 0 < 5 /\ divup 11 5 = Ok (ceil_ratio 11 5).
Proof.
  split; [lia|]. split; [lia|].
  exact (proj1 (divup_ceiling 11 5 ltac:(lia) ltac:(lia))).
Defined.

(** ** The quotes *)

(** C3. [quoteBuy0 a0] is refused with the insufficient-reserve error
    exactly when [a0 >= r0], so at [a0 = r0] and at [a0 = r0 + 1] too;
    otherwise it returns [ceil (r0 * r1 / (r0 - a0)) - r1].  In both cases
    the pool is left as it was. *)
Theorem quoteBuy0_spec (s : PartialAmm) (a0 : Z) :
  quoteBuy0 a0 s =
  (if a0 >=? r0 s then
     Raise (RuntimeError ("a0 (" ++ str a0 ++ ") >= r0 (" ++ str (r0 s) ++ ")"))
   else Ok (ceil_ratio (r0 s * r1 s) (r0 s - a0) - r1 s), s) /\
  ((exists e, quoteBuy0 a0 s = (Raise e, s) /\ InsufficientReserve e) <->
   a0 >= r0 s) /\
  ((exists a1, quoteBuy0 a0 s = (Ok a1, s)) <-> a0 < r0 s) /\
  (exists e, quoteBuy0 (r0 s) s = (Raise e, s) /\ InsufficientReserve e) /\
  (exists e, quoteBuy0 (r0 s + 1) s = (Raise e, s) /\ InsufficientReserve e).
Proof.
  assert (Hfail : forall a, r0 s <= a ->
            exists e, quoteBuy0 a s = (Raise e, s) /\ InsufficientReserve e).
  { intros a Ha. eexists. split; [now apply quoteBuy0_at_or_above|].
    now exists a, (r0 s). }
  split; [|split; [|split; [|split]]].
  - destruct (Z.geb_spec a0 (r0 s)).
    + now apply quoteBuy0_at_or_above.
    + apply quoteBuy0_below. lia.
  - split.
    + intros (e & He & _).
      destruct (Z_lt_ge_dec a0 (r0 s)) as [Hlt|Hge]; [|exact Hge].
      rewrite (quoteBuy0_below _ _ Hlt) in He. discriminate.
    + intros Hge. apply Hfail. lia.
  - split.
    + intros (a1 & Ha1).
      destruct (Z_lt_ge_dec a0 (r0 s)) as [Hlt|Hge]; [exact Hlt|].
      rewrite quoteBuy0_at_or_above in Ha1 by lia. discriminate.
    + intros Hlt. eexists. now apply quoteBuy0_below.
  - apply Hfail. lia.
  - apply Hfail. lia.
Qed.

(** C4. With [r0 + a0 > 0], [quoteSell0 a0] computes
    [a1 = r1 - floor (r0 * r1 / (r0 + a0))], is refused with the
    reserve-exhausted error exactly when [a1 >= r1], and otherwise returns
    [a1]; the pool is left as it was.  Truncating the quotient instead of
    flooring it gives the same refusals and the same returned amounts. *)
Theorem quoteSell0_spec (s : PartialAmm) (a0 : Z) (Hd : 0 < r0 s + a0) :
  let a1 := r1 s - floor_ratio (r0 s * r1 s) (r0 s + a0) in
  let a1_trunc := r1 s - (r0 s * r1 s) ÷ (r0 s + a0) in
  quoteSell0 a0 s =
  (if a1 >=? r1 s then
     Raise (RuntimeError ("a1 (" ++ str a1 ++ ") >= r1 (" ++ str (r1 s) ++ ")"))
   else Ok a1, s) /\
  ((exists e, quoteSell0 a0 s = (Raise e, s) /\ ReserveExhausted e) <->
   a1 >= r1 s) /\
  ((exists e, quoteSell0 a0 s = (Raise e, s)) <-> a1 >= r1 s) /\
  (quoteSell0 a0 s = (Ok a1, s) <-> a1 < r1 s) /\
  (a1_trunc >= r1 s <-> a1 >= r1 s) /\
  (a1 >= r1 s \/ a1_trunc = a1).
Proof.
  intros a1 a1_trunc.
  pose proof (quoteSell0_pos a0 s Hd) as Heq. cbv zeta in Heq.
  fold (k s) in a1. fold a1 in Heq.
  split; [exact Heq|].
  assert (Htrunc : (a1_trunc >= r1 s <-> a1 >= r1 s) /\
                   (a1 >= r1 s \/ a1_trunc = a1)).
  { subst a1 a1_trunc. unfold k. rewrite floor_ratio_div by assumption.
    destruct (Z_lt_ge_dec (r0 s * r1 s) 0) as [Hneg|Hnn].
    - destruct (quot_div_neg _ _ Hd Hneg). lia.
    - rewrite quot_div_nonneg by lia. lia. }
  rewrite Heq.
  destruct (Z.geb_spec a1 (r1 s)) as [Hge|Hlt].
  - split; [|split; [|split]]; [| | |exact Htrunc].
    + split; [lia|]. intros _. eexists. split; [reflexivity|].
      now exists a1, (r1 s).
    + split; [lia|]. intros _. now eexists.
    + split; [discriminate|lia].
  - split; [|split; [|split]]; [| | |exact Htrunc].
    + split; [|lia]. intros (e & He & _). discriminate.
    + split; [|lia]. intros (e & He). discriminate.
    + split; [lia|reflexivity].
Qed.

Lemma quoteSell0_spec_witness :
  let s := init "0123" 10000 10000 in
  0 < r0 s + 10000 /\ quoteSell0 10000 s = (Ok 5000, s).
Proof.
  cbv zeta. split; [reflexivity|].
  exact (proj1 (quoteSell0_spec (init "0123" 10000 10000) 10000
                  ltac:(reflexivity))).
Defined.

(** ** The trades *)

(** C5. [buy0] and [sell0] update both reserves or neither.  When the quote
    returns [a1], [buy0 a0] leaves [r0 - a0] and [r1 + a1], [sell0 a0]
    leaves [r0 + a0] and [r1 - a1], and each returns [a1]; when the quote
    raises, the trade raises the same error and the pool is as it was. *)
Theorem buy0_sell0_atomic (s : PartialAmm) (a0 : Z) :
  buy0 a0 s =
  match fst (quoteBuy0 a0 s) with
  | Ok a1 => (Ok a1, {| id := id s; r0 := r0 s - a0; r1 := r1 s + a1 |})
  | Raise e => (Raise e, s)
  end /\
  sell0 a0 s =
  match fst (quoteSell0 a0 s) with
  | Ok a1 => (Ok a1, {| id := id s; r0 := r0 s + a0; r1 := r1 s - a1 |})
  | Raise e => (Raise e, s)
  end /\
  snd (quoteBuy0 a0 s) = s /\
  snd (quoteSell0 a0 s) = s.
Proof.
  split; [apply buy0_eq|].
  split; [apply sell0_eq|].
  split; [apply quoteBuy0_pure|apply quoteSell0_pure].
Qed.

(** A sale with positive reserves and a positive amount goes through
    exactly when the product covers the enlarged asset-0 reserve. *)
Lemma sell0_succeeds_iff (s : PartialAmm) (a0 : Z) :
  0 < r0 s -> 0 < r1 s -> 0 < a0 ->
  ((exists a1 s', sell0 a0 s = (Ok a1, s')) <-> r0 s + a0 <= k s).
Proof.
  intros H0 H1 Ha.
  rewrite sell0_eq, quoteSell0_pos by lia. cbn [fst]. cbv zeta.
  rewrite floor_ratio_div by lia.
  pose proof (floor_bracket (k s) (r0 s + a0) ltac:(lia)) as Hb.
  destruct (Z.geb_spec (r1 s - k s / (r0 s + a0)) (r1 s)) as [Hge|Hlt].
  - split; [intros (a1 & s' & He); discriminate|]. intros Hk. nia.
  - split; [intros _; nia|]. intros _. now do 2 eexists.
Qed.

(** Buying [a0] and selling it back undoes the buy: the sale pays out what
    the buy charged and the pool is the one before the buy. *)
Lemma buy0_then_sell0 (s : PartialAmm) (a0 : Z) :
  0 < r0 s -> 0 < r1 s -> 0 < a0 < r0 s ->
  exists a1 s1,
    buy0 a0 s = (Ok a1, s1) /\ sell0 a0 s1 = (Ok a1, s).
Proof.
  intros H0 H1 Ha.
  rewrite buy0_eq, quoteBuy0_below by lia. cbn [fst].
  do 2 eexists. split; [reflexivity|].
  rewrite sell0_eq, quoteSell0_pos by (cbn; lia). cbn [fst r0 r1 id k]. cbv zeta.
  rewrite floor_ratio_div by lia.
  rewrite ceil_ratio_divup by lia.
  unfold k. cbn [r0 r1].
  pose proof (divup_bracket (r0 s * r1 s) (r0 s - a0) ltac:(lia)) as Hc.
  set (c := (r0 s * r1 s + (r0 s - a0 - 1)) / (r0 s - a0)) in *.
  assert (Hq : (r0 s - a0) * (r1 s + (c - r1 s)) / (r0 s - a0 + a0) = r1 s).
  { symmetry.
    apply Z.div_unique with (r := (r0 s - a0) * c - r0 s * r1 s);
      [left|]; nia. }
  rewrite Hq.
  destruct (Z.geb_spec (r1 s + (c - r1 s) - r1 s) (r1 s + (c - r1 s)));
    [lia|].
  destruct s as [i x y]. cbn [r0 r1 id] in *.
  f_equal; [f_equal; lia|f_equal; lia].
Qed.

(** C1. With positive reserves and [0 < a0 < r0], [buy0 a0] goes through
    and the product of the reserves does not decrease:
    [(r0 - a0) * (r1 + a1) >= r0 * r1]. *)
Theorem buy0_product_nondecreasing (s : PartialAmm) (a0 : Z)
  (H0 : 0 < r0 s) (H1 : 0 < r1 s) (Ha : 0 < a0 < r0 s) :
  exists a1 s',
    buy0 a0 s = (Ok a1, s') /\
    r0 s' = r0 s - a0 /\
    r1 s' = r1 s + a1 /\
    (r0 s - a0) * (r1 s + a1) >= r0 s * r1 s /\
    k s' >= k s.
Proof.
  rewrite buy0_eq, quoteBuy0_below by lia. cbn [fst].
  do 2 eexists. split; [reflexivity|]. cbn [r0 r1].
  split; [reflexivity|]. split; [reflexivity|].
  rewrite ceil_ratio_divup by lia.
  pose proof (divup_bracket (k s) (r0 s - a0) ltac:(lia)) as Hc.
  unfold k in *. cbn [r0 r1]. nia.
Qed.

Lemma buy0_product_nondecreasing_witness :
  let s := init "0123" 10000 10000 in
  0 < r0 s /\ 0 < r1 s /\ 0 < 90 < r0 s /\
  exists a1 s',
    buy0 90 s = (Ok a1, s') /\
    r0 s' = r0 s - 90 /\
    r1 s' = r1 s + a1 /\
    (r0 s - 90) * (r1 s + a1) >= r0 s * r1 s /\
    k s' >= k s.
Proof.
  cbv zeta.
  split; [reflexivity|]. split; [reflexivity|]. split; [cbn; lia|].
  apply (buy0_product_nondecreasing (init "0123" 10000 10000) 90);
    cbn; lia.
Defined.

(** C10. With positive reserves and [0 < a0 < r0], [quoteBuy0 a0], and so
    [buy0 a0], returns a payment of at least one unit of asset-1. *)
Theorem quoteBuy0_at_least_one (s : PartialAmm) (a0 : Z)
  (H0 : 0 < r0 s) (H1 : 0 < r1 s) (Ha : 0 < a0 < r0 s) :
  exists a1,
    quoteBuy0 a0 s = (Ok a1, s) /\
    fst (buy0 a0 s) = Ok a1 /\
    1 <= a1.
Proof.
  rewrite buy0_eq, quoteBuy0_below by lia. cbn [fst].
  eexists. split; [reflexivity|]. split; [reflexivity|].
  rewrite ceil_ratio_divup by lia.
  pose proof (divup_bracket (k s) (r0 s - a0) ltac:(lia)) as Hc.
  unfold k in *. nia.
Qed.

Lemma quoteBuy0_at_least_one_witness :
  let s := init "0123" 10000 1 in
  0 < r0 s /\ 0 < r1 s /\ 0 < 1 < r0 s /\
  exists a1,
    quoteBuy0 1 s = (Ok a1, s) /\ fst (buy0 1 s) = Ok a1 /\ 1 <= a1.
Proof.
  cbv zeta.
  split; [reflexivity|]. split; [reflexivity|]. split; [cbn; lia|].
  apply (quoteBuy0_at_least_one (init "0123" 10000 1) 1); cbn; lia.
Defined.

(** C2. On a freshly constructed pool with positive reserves and
    [0 < a0 < r0], [buy0 a0] followed by [sell0 a0] both go through and
    leave [r0] at its original value and [r1] no larger than its original
    value. *)
Theorem buy0_sell0_round_trip (uuid : string) (x y a0 : Z)
  (Hx : 0 < x) (Hy : 0 < y) (Ha : 0 < a0 < x) :
  exists a1 s1 a1' s2,
    buy0 a0 (init uuid x y) = (Ok a1, s1) /\
    sell0 a0 s1 = (Ok a1', s2) /\
    r0 s2 = x /\
    r1 s2 <= y.
Proof.
  destruct (buy0_then_sell0 (init uuid x y) a0 Hx Hy Ha)
    as (a1 & s1 & Hbuy & Hsell).
  exists a1, s1, a1, (init uuid x y).
  split; [exact Hbuy|]. split; [exact Hsell|].
  split; [reflexivity|]. cbn. lia.
Qed.

Lemma buy0_sell0_round_trip_witness :
  0 < 10000 /\ 0 < 10000 /\ 0 < 90 < 10000 /\
  exists a1 s1 a1' s2,
    buy0 90 (init "0123" 10000 10000) = (Ok a1, s1) /\
    sell0 90 s1 = (Ok a1', s2) /\
    r0 s2 = 10000 /\
    r1 s2 <= 10000.
Proof.
  split; [reflexivity|]. split; [reflexivity|]. split; [lia|].
  apply (buy0_sell0_round_trip "0123" 10000 10000 90); lia.
Defined.

(** C8. With positive reserves and a positive amount, a [sell0 a0] that
    goes through with payout [a1] leaves a product no larger than before,
    short of it by less than the new asset-0 reserve [r0 + a0]: the payout
    exceeds the exact quotient payout [r1 - k / (r0 + a0)] by less than
    one unit of asset-1. *)
Theorem sell0_product_deficit (s s' : PartialAmm) (a0 a1 : Z)
  (H0 : 0 < r0 s) (H1 : 0 < r1 s) (Ha : 0 < a0)
  (Hsell : sell0 a0 s = (Ok a1, s')) :
  (r0 s + a0) * (r1 s - a1) <= r0 s * r1 s /\
  r0 s * r1 s - (r0 s + a0) * (r1 s - a1) < r0 s + a0 /\
  k s' = (r0 s + a0) * (r1 s - a1) /\
  (let exact := (inject_Z (r1 s) - inject_Z (k s) / inject_Z (r0 s + a0))%Q in
   (exact <= inject_Z a1)%Q /\ (inject_Z a1 < exact + 1)%Q).
Proof.
  rewrite sell0_eq, quoteSell0_pos in Hsell by lia.
  cbn [fst] in Hsell. cbv zeta in Hsell.
  destruct (_ >=? _) in Hsell; [discriminate|].
  injection Hsell as <- <-.
  pose proof (Qfloor_le (inject_Z (k s) / inject_Z (r0 s + a0))) as Hlo.
  pose proof (Qlt_floor (inject_Z (k s) / inject_Z (r0 s + a0))) as Hhi.
  fold (floor_ratio (k s) (r0 s + a0)) in Hlo, Hhi.
  set (q := floor_ratio (k s) (r0 s + a0)) in *.
  assert (Hq : q = k s / (r0 s + a0)) by (apply floor_ratio_div; lia).
  pose proof (floor_bracket (k s) (r0 s + a0) ltac:(lia)) as Hb.
  rewrite <- Hq in Hb. unfold k in Hb |- *. cbn [r0 r1].
  split; [lia|]. split; [lia|]. split; [ring|].
  cbv zeta. fold (k s).
  set (x := (inject_Z (k s) / inject_Z (r0 s + a0))%Q) in *.
  rewrite (inject_Z_plus q 1) in Hhi.
  change (inject_Z 1) with 1%Q in Hhi.
  change (r1 s - q) with (r1 s + - q).
  rewrite (inject_Z_plus (r1 s) (- q)), inject_Z_opp.
  split; lra.
Qed.

Lemma sell0_product_deficit_witness :
  let s := init "0123" 10 10 in
  let s' := {| id := "0123"; r0 := 13; r1 := 7 |} in
  0 < r0 s /\ 0 < r1 s /\ 0 < 3 /\ sell0 3 s = (Ok 3, s') /\
  (r0 s + 3) * (r1 s - 3) <= r0 s * r1 s /\
  r0 s * r1 s - (r0 s + 3) * (r1 s - 3) < r0 s + 3.
Proof.
  cbv zeta.
  split; [reflexivity|]. split; [reflexivity|]. split; [reflexivity|].
  split; [reflexivity|].
  pose proof (sell0_product_deficit (init "0123" 10 10)
                {| id := "0123"; r0 := 13; r1 := 7 |} 3 3
                ltac:(reflexivity) ltac:(reflexivity) ltac:(reflexivity)
                ltac:(reflexivity)) as H.
  split; [exact (proj1 H)|exact (proj1 (proj2 H))].
Defined.

(** ** Worked scenarios *)

(** C9. A pool constructed with reserves [10000] and [10000] has product
    [100000000] and price [1]; [sell0 10000] on it returns [5000] and
    leaves reserves [20000] and [5000] at price [1/4]; [buy0 90] on it
    returns [91] and leaves reserves [9910] and [10091]. *)
Theorem concrete_scenarios (uuid : string) :
  let m := init uuid 10000 10000 in
  k m = 100000000 /\
  (exists p, price0 m = (Ok p, m) /\ float_value p == 1) /\
  (exists m',
     sell0 10000 m = (Ok 5000, m') /\
     r0 m' = 20000 /\ r1 m' = 5000 /\
     exists p, price0 m' = (Ok p, m') /\ float_value p == 1 # 4) /\
  (exists m',
     buy0 90 m = (Ok 91, m') /\ r0 m' = 9910 /\ r1 m' = 10091).
Proof.
  cbv zeta. split; [reflexivity|]. split; [|split].
  - eexists. split; reflexivity.
  - eexists. split; [reflexivity|]. split; [reflexivity|].
    split; [reflexivity|]. eexists. split; reflexivity.
  - eexists. split; [reflexivity|]. split; reflexivity.
Qed.

(** ** Donations *)

Lemma price0_eq (s : PartialAmm) : price0 s = (truediv (r1 s) (r0 s), s).
Proof. reflexivity. Qed.

Lemma donate0_eq (a0 : Z) (s : PartialAmm) :
  donate0 a0 s =
  (truediv (r1 s) (r0 s + a0), {| id := id s; r0 := r0 s + a0; r1 := r1 s |}).
Proof. reflexivity. Qed.




(** * Further properties of the pool *)

(** ** The trades in closed form *)

(** A buy below the reserve, run to its end: the new asset-1 reserve is the
    quotient computed by [divup]. *)
Lemma buy0_run (s : PartialAmm) (a0 : Z) :
  a0 < r0 s ->
  buy0 a0 s =
  (Ok ((r0 s * r1 s + (r0 s - a0 - 1)) / (r0 s - a0) - r1 s),
   {| id := id s; r0 := r0 s - a0;
      r1 := (r0 s * r1 s + (r0 s - a0 - 1)) / (r0 s - a0) |}).
Proof.
  intros Ha. rewrite buy0_eq, quoteBuy0_below by lia. cbn [fst].
  rewrite ceil_ratio_divup by lia. unfold k.
  f_equal. f_equal. lia.
Qed.

(** A sale that keeps the asset-0 reserve positive, run to its end: it goes
    through exactly when the floored quotient is positive, and that
    quotient is the new asset-1 reserve. *)
Lemma sell0_run (s : PartialAmm) (a0 : Z) :
  0 < r0 s + a0 ->
  sell0 a0 s =
  (let q := r0 s * r1 s / (r0 s + a0) in
   if (0 <? q)%Z then
     (Ok (r1 s - q), {| id := id s; r0 := r0 s + a0; r1 := q |})
   else
     (Raise (RuntimeError
               ("a1 (" ++ str (r1 s - q) ++ ") >= r1 (" ++ str (r1 s) ++ ")")),
      s)).
Proof.
  intros Hd. rewrite sell0_eq, quoteSell0_pos by lia. cbn [fst]. cbv zeta.
  rewrite floor_ratio_div by lia. unfold k.
  set (q := r0 s * r1 s / (r0 s + a0)).
  destruct (Z.geb_spec (r1 s - q) (r1 s)), (Z.ltb_spec 0 q); try lia.
  - reflexivity.
  - f_equal. f_equal. lia.
Qed.

(** ** [divup] beyond its contract *)

(** X1. For a positive denominator and any integer numerator, negative
    ones included, [divup n d] is the ceiling of [n / d]: the floor
    quotient when [d] divides [n] and one more otherwise. *)
Theorem divup_floor_or_next (n d : Z) (Hd : 0 < d) :
  divup n d = Ok (ceil_ratio n d) /\
  ceil_ratio n d = (if (n mod d =? 0)%Z then n / d else n / d + 1) /\
  floordiv n d = Ok (floor_ratio n d) /\
  floor_ratio n d <= ceil_ratio n d <= floor_ratio n d + 1.
Proof.
  pose proof (Z.div_mod n d ltac:(lia)) as Hn.
  pose proof (Z.mod_pos_bound n d Hd) as Hr.
  assert (Hc : ceil_ratio n d = (if (n mod d =? 0)%Z then n / d else n / d + 1)).
  { apply ceil_ratio_unique; [assumption|].
    destruct (Z.eqb_spec (n mod d) 0); lia. }
  split; [now apply divup_ok|]. split; [exact Hc|].
  split; [now apply floordiv_ok|].
  rewrite Hc, floor_ratio_div by assumption.
  destruct (n mod d =? 0)%Z; lia.
Qed.

Lemma divup_floor_or_next_witness :
  0 < 5 /\ divup (-11) 5 = Ok (-2) /\ floordiv (-11) 5 = Ok (-3).
Proof.
  split; [lia|].
  pose proof (divup_floor_or_next (-11) 5 ltac:(lia)) as (H1 & _ & H3 & _).
  split; [exact H1|exact H3].
Defined.

(** X2. For a negative denominator [divup] is not a ceiling: the value [c]
    it returns has [c * d <= n - 2], so it lies strictly above [n / d], also
    when [d] divides [n]. *)
Theorem divup_negative_denominator (n d : Z) (Hd : d < 0) :
  exists c,
    divup n d = Ok c /\
    c * d <= n - 2 /\
    n + d - 1 <= c * d /\
    (forall q, n = q * d -> q < c).
Proof.
  unfold divup, floordiv.
  destruct (Z.eqb_spec d 0); [lia|].
  eexists. split; [reflexivity|].
  pose proof (Z.div_mod (n + (d - 1)) d ltac:(lia)) as Hn.
  pose proof (Z.mod_neg_bound (n + (d - 1)) d Hd) as Hr.
  set (c := (n + (d - 1)) / d) in *.
  split; [lia|]. split; [lia|].
  intros q Hq. nia.
Qed.

Lemma divup_negative_denominator_witness :
  -1 < 0 /\ exists c, divup 0 (-1) = Ok c /\ 0 < c.
Proof.
  split; [lia|].
  destruct (divup_negative_denominator 0 (-1) ltac:(lia))
    as (c & Hc & _ & _ & Hq).
  exists c. split; [exact Hc|]. apply (Hq 0). reflexivity.
Defined.

(** ** What a trade charges and pays *)

(** X3. For any integer reserves and any [a0 < r0], [quoteBuy0 a0] returns
    the ceiling of [r1 * a0 / (r0 - a0)]. *)
Theorem quoteBuy0_closed_form (s : PartialAmm) (a0 : Z) (Ha : a0 < r0 s) :
  quoteBuy0 a0 s = (Ok (ceil_ratio (r1 s * a0) (r0 s - a0)), s).
Proof.
  rewrite quoteBuy0_below by assumption. f_equal. f_equal.
  symmetry. apply ceil_ratio_unique; [lia|].
  rewrite ceil_ratio_divup by lia.
  pose proof (divup_bracket (k s) (r0 s - a0) ltac:(lia)) as Hc.
  unfold k in *. nia.
Qed.

Lemma quoteBuy0_closed_form_witness :
  let s := init "0123" 10000 10000 in
  90 < r0 s /\ quoteBuy0 90 s = (Ok 91, s).
Proof.
  cbv zeta. split; [reflexivity|].
  exact (quoteBuy0_closed_form (init "0123" 10000 10000) 90
           ltac:(reflexivity)).
Defined.

(** X4. With [r0 + a0 > 0], the amount [quoteSell0 a0] computes and tests
    against [r1] is the ceiling of [r1 * a0 / (r0 + a0)]. *)
Theorem quoteSell0_closed_form (s : PartialAmm) (a0 : Z)
  (Hd : 0 < r0 s + a0) :
  let a1 := ceil_ratio (r1 s * a0) (r0 s + a0) in
  quoteSell0 a0 s =
  (if a1 >=? r1 s then
     Raise (RuntimeError ("a1 (" ++ str a1 ++ ") >= r1 (" ++ str (r1 s) ++ ")"))
   else Ok a1, s).
Proof.
  cbv zeta.
  assert (Ha1 : ceil_ratio (r1 s * a0) (r0 s + a0) =
                r1 s - floor_ratio (k s) (r0 s + a0)).
  { apply ceil_ratio_unique; [lia|].
    rewrite floor_ratio_div by lia.
    pose proof (floor_bracket (k s) (r0 s + a0) ltac:(lia)) as Hq.
    unfold k in *. nia. }
  rewrite Ha1. now apply quoteSell0_pos.
Qed.

Lemma quoteSell0_closed_form_witness :
  let s := init "0123" 10 10 in
  0 < r0 s + 3 /\ quoteSell0 3 s = (Ok 3, s).
Proof.
  cbv zeta. split; [reflexivity|].
  exact (quoteSell0_closed_form (init "0123" 10 10) 3 ltac:(reflexivity)).
Defined.

(** X5. For any integer reserves and any [a0 < r0], zero and negative
    amounts included, [buy0 a0] goes through, never lowers the product of
    the reserves, and raises it by less than the new asset-0 reserve. *)
Theorem buy0_product_bounds (s : PartialAmm) (a0 : Z) (Ha : a0 < r0 s) :
  exists a1 s',
    buy0 a0 s = (Ok a1, s') /\
    r0 s' = r0 s - a0 /\
    r1 s' = r1 s + a1 /\
    k s <= k s' < k s + r0 s'.
Proof.
  rewrite buy0_run by assumption.
  do 2 eexists. split; [reflexivity|]. cbn [r0 r1]. unfold k. cbn [r0 r1].
  pose proof (divup_bracket (r0 s * r1 s) (r0 s - a0) ltac:(lia)) as Hc.
  split; [reflexivity|]. split; [lia|]. nia.
Qed.

Lemma buy0_product_bounds_witness :
  let s := init "0123" 10 (-7) in
  -4 < r0 s /\
  exists a1 s',
    buy0 (-4) s = (Ok a1, s') /\
    r0 s' = r0 s - -4 /\
    r1 s' = r1 s + a1 /\
    k s <= k s' < k s + r0 s'.
Proof.
  cbv zeta. split; [reflexivity|].
  apply (buy0_product_bounds (init "0123" 10 (-7)) (-4)). reflexivity.
Defined.

(** ** How a trade moves the price *)

(** X6. With positive reserves and [0 < a0 < r0], [buy0 a0] strictly raises
    the ratio [r1 / r0] of the reserves: [r1 * r0' < r1' * r0] for the
    reserves [r0'], [r1'] it leaves. *)
Theorem buy0_raises_price (s : PartialAmm) (a0 : Z)
  (H0 : 0 < r0 s) (H1 : 0 < r1 s) (Ha : 0 < a0 < r0 s) :
  exists a1 s',
    buy0 a0 s = (Ok a1, s') /\
    0 < r0 s' /\
    r1 s * r0 s' < r1 s' * r0 s.
Proof.
  rewrite buy0_run by lia.
  pose proof (divup_bracket (r0 s * r1 s) (r0 s - a0) ltac:(lia)) as Hc.
  do 2 eexists. split; [reflexivity|]. cbn [r0 r1].
  split; [lia|nia].
Qed.

Lemma buy0_raises_price_witness :
  let s := init "0123" 10000 10000 in
  0 < r0 s /\ 0 < r1 s /\ 0 < 90 < r0 s /\
  exists a1 s',
    buy0 90 s = (Ok a1, s') /\
    0 < r0 s' /\
    r1 s * r0 s' < r1 s' * r0 s.
Proof.
  cbv zeta.
  split; [reflexivity|]. split; [reflexivity|]. split; [cbn; lia|].
  apply (buy0_raises_price (init "0123" 10000 10000) 90); cbn; lia.
Defined.

(** X7. With positive reserves and a positive amount, a [sell0 a0] that
    goes through pays at least one unit and less than the asset-1 reserve,
    leaves at least one unit of asset-1, and strictly lowers the ratio
    [r1 / r0] of the reserves: [r1' * r0 < r1 * r0']. *)
Theorem sell0_payout_and_price (s s' : PartialAmm) (a0 a1 : Z)
  (H0 : 0 < r0 s) (H1 : 0 < r1 s) (Ha : 0 < a0)
  (Hsell : sell0 a0 s = (Ok a1, s')) :
  1 <= a1 < r1 s /\
  1 <= r1 s' /\
  0 < r0 s' /\
  r1 s' * r0 s < r1 s * r0 s'.
Proof.
  rewrite sell0_run in Hsell by lia. cbv zeta in Hsell.
  pose proof (floor_bracket (r0 s * r1 s) (r0 s + a0) ltac:(lia)) as Hq.
  set (q := r0 s * r1 s / (r0 s + a0)) in *.
  destruct (Z.ltb_spec 0 q); [|discriminate].
  injection Hsell as <- <-. cbn [r0 r1].
  split; [nia|]. split; [lia|]. split; [lia|nia].
Qed.

Lemma sell0_payout_and_price_witness :
  let s := init "0123" 10 10 in
  let s' := {| id := "0123"; r0 := 13; r1 := 7 |} in
  0 < r0 s /\ 0 < r1 s /\ 0 < 3 /\ sell0 3 s = (Ok 3, s') /\
  1 <= 3 < r1 s /\ 1 <= r1 s' /\ 0 < r0 s' /\ r1 s' * r0 s < r1 s * r0 s'.
Proof.
  cbv zeta.
  split; [reflexivity|]. split; [reflexivity|]. split; [reflexivity|].
  split; [reflexivity|].
  exact (sell0_payout_and_price (init "0123" 10 10)
           {| id := "0123"; r0 := 13; r1 := 7 |} 3 3
           ltac:(reflexivity) ltac:(reflexivity) ltac:(reflexivity)
           ltac:(reflexivity)).
Defined.

(** ** What the trades can raise *)

(** The two refusal messages differ in their second character. *)
Lemma refusals_differ (e : exn) :
  InsufficientReserve e -> ReserveExhausted e -> False.
Proof.
  intros (a & x & Ha) (b & y & Hb). rewrite Ha in Hb. discriminate Hb.
Qed.

(** X8. Whatever the reserves and the amount, a [buy0] that raises does so
    with the insufficient-reserve message, only on [a0 >= r0], and leaves
    the pool as it was; it never raises [ZeroDivisionError] and never the
    reserve-exhausted message. *)
Theorem buy0_errors (s : PartialAmm) (a0 : Z) (e : exn)
  (Hraise : fst (buy0 a0 s) = Raise e) :
  r0 s <= a0 /\
  InsufficientReserve e /\
  ~ ReserveExhausted e /\
  e <> ZeroDivisionError /\
  snd (buy0 a0 s) = s.
Proof.
  destruct (Z_lt_ge_dec a0 (r0 s)) as [Hlt|Hge].
  - rewrite buy0_run in Hraise by assumption. discriminate.
  - rewrite buy0_eq, quoteBuy0_at_or_above in * by lia.
    cbn [fst snd] in *. injection Hraise as <-.
    assert (Hi : InsufficientReserve
                   (RuntimeError
                      ("a0 (" ++ str a0 ++ ") >= r0 (" ++ str (r0 s) ++ ")")))
      by now exists a0, (r0 s).
    split; [lia|]. split; [exact Hi|].
    split; [intros Hr; exact (refusals_differ _ Hi Hr)|].
    split; [discriminate|reflexivity].
Qed.

Lemma buy0_errors_witness :
  let s := init "0123" 10 5 in
  fst (buy0 10 s) = Raise (RuntimeError "a0 (10) >= r0 (10)") /\
  r0 s <= 10 /\ snd (buy0 10 s) = s.
Proof.
  cbv zeta. split; [reflexivity|].
  pose proof (buy0_errors (init "0123" 10 5) 10
                (RuntimeError "a0 (10) >= r0 (10)") ltac:(reflexivity))
    as (Ha & _ & _ & _ & Hs).
  split; [exact Ha|exact Hs].
Defined.

(** X9. Whatever the reserves and the amount, a [sell0] that raises leaves
    the pool as it was, and raises either [ZeroDivisionError], with
    [a0 = - r0], or the reserve-exhausted message, with a floored quotient
    [k // (r0 + a0)] that is not positive; it never raises the
    insufficient-reserve message. *)
Theorem sell0_errors (s : PartialAmm) (a0 : Z) (e : exn)
  (Hraise : fst (sell0 a0 s) = Raise e) :
  snd (sell0 a0 s) = s /\
  ~ InsufficientReserve e /\
  ((e = ZeroDivisionError /\ r0 s + a0 = 0) \/
   (ReserveExhausted e /\ r0 s + a0 <> 0 /\
    r0 s * r1 s / (r0 s + a0) <= 0)).
Proof.
  rewrite sell0_eq, quoteSell0_eq in *. cbn [fst] in *.
  unfold floordiv in *.
  destruct (Z.eqb_spec (r0 s + a0) 0) as [Hz|Hnz].
  - cbn [fst snd] in *. injection Hraise as <-.
    split; [reflexivity|].
    split; [intros (a & x & Hx); discriminate Hx|].
    left. split; [reflexivity|assumption].
  - set (q := r0 s * r1 s / (r0 s + a0)) in *.
    destruct (Z.geb_spec (r1 s - q) (r1 s)) as [Hge|Hlt];
      cbn [fst snd] in *; [|discriminate].
    injection Hraise as <-.
    assert (Hr : ReserveExhausted
                   (RuntimeError
                      ("a1 (" ++ str (r1 s - q) ++ ") >= r1 ("
                       ++ str (r1 s) ++ ")")))
      by now exists (r1 s - q), (r1 s).
    split; [reflexivity|].
    split; [intros Hi; exact (refusals_differ _ Hi Hr)|].
    right. split; [exact Hr|]. split; [assumption|lia].
Qed.

Lemma sell0_errors_witness :
  let s := init "0123" 10 5 in
  fst (sell0 (-10) s) = Raise ZeroDivisionError /\
  snd (sell0 (-10) s) = s.
Proof.
  cbv zeta. split; [reflexivity|].
  exact (proj1 (sell0_errors (init "0123" 10 5) (-10) ZeroDivisionError
                  ltac:(reflexivity))).
Defined.

(** ** Reserves stay positive under trading *)

(** One trading call on positive reserves, with any amount and whatever
    its outcome, leaves positive reserves and the same [id]. *)
Lemma trade_keeps_positive (s s' : PartialAmm) :
  trade s s' -> 0 < r0 s -> 0 < r1 s ->
  0 < r0 s' /\ 0 < r1 s' /\ id s' = id s.
Proof.
  intros Ht H0 H1. destruct Ht as [s a0|s a0].
  - destruct (Z_lt_ge_dec a0 (r0 s)) as [Hlt|Hge].
    + rewrite buy0_run by assumption. cbn [snd r0 r1 id].
      pose proof (divup_bracket (r0 s * r1 s) (r0 s - a0) ltac:(lia)) as Hc.
      split; [lia|]. split; [nia|reflexivity].
    + rewrite buy0_eq, quoteBuy0_at_or_above by lia. cbn [fst snd]. auto.
  - rewrite sell0_eq, quoteSell0_eq. cbn [fst]. unfold floordiv.
    destruct (Z.eqb_spec (r0 s + a0) 0) as [Hz|Hnz]; [cbn [snd]; auto|].
    pose proof (Z.div_mod (r0 s * r1 s) (r0 s + a0) Hnz) as Hk.
    set (q := r0 s * r1 s / (r0 s + a0)) in *.
    destruct (Z.geb_spec (r1 s - q) (r1 s)) as [Hge|Hlt];
      cbn [snd r0 r1 id]; [auto|].
    destruct (Z_lt_ge_dec (r0 s + a0) 0) as [Hneg|Hpos].
    + pose proof (Z.mod_neg_bound (r0 s * r1 s) (r0 s + a0) Hneg). nia.
    + split; [lia|]. split; [lia|reflexivity].
Qed.

(** X10. Starting from positive reserves, after any sequence of [buy0] and
    [sell0] calls, with any amounts and whether or not they raise, both
    reserves are still positive, the [id] is the one the pool started with,
    and [price0] does not raise [ZeroDivisionError]. *)
Theorem trades_keep_positive (s s' : PartialAmm)
  (H0 : 0 < r0 s) (H1 : 0 < r1 s) (Hrun : trades s s') :
  0 < r0 s' /\ 0 < r1 s' /\ id s' = id s /\
  fst (price0 s') <> Raise ZeroDivisionError.
Proof.
  induction Hrun as [s|s s1 s2 Hstep Hrest IH].
  - split; [assumption|]. split; [assumption|]. split; [reflexivity|].
    rewrite price0_eq. cbn [fst]. apply truediv_nonzero. lia.
  - destruct (trade_keeps_positive _ _ Hstep H0 H1) as (P0 & P1 & Pid).
    destruct (IH P0 P1) as (Q0 & Q1 & Qid & Qp).
    split; [assumption|]. split; [assumption|].
    split; [congruence|assumption].
Qed.

Lemma trades_keep_positive_witness :
  let s := init "0123" 10 10 in
  let s' := snd (buy0 4 (snd (sell0 3 s))) in
  0 < r0 s /\ 0 < r1 s /\ trades s s' /\
  0 < r0 s' /\ 0 < r1 s' /\ id s' = id s /\
  fst (price0 s') <> Raise ZeroDivisionError.
Proof.
  cbv zeta.
  assert (Hrun : trades (init "0123" 10 10)
                   (snd (buy0 4 (snd (sell0 3 (init "0123" 10 10)))))).
  { eapply trades_cons; [apply trade_sell0|].
    eapply trades_cons; [apply trade_buy0|]. apply trades_nil. }
  split; [reflexivity|]. split; [reflexivity|]. split; [exact Hrun|].
  exact (trades_keep_positive (init "0123" 10 10)
           (snd (buy0 4 (snd (sell0 3 (init "0123" 10 10)))))
           ltac:(reflexivity) ltac:(reflexivity) Hrun).
Defined.

(** ** Splitting a trade *)

(** X11. Buying [a] and then [b] never costs less than buying [a + b] at
    once: for any integer reserves with [a < r0] and [b < r0 - a], the three
    buys go through, both routes leave the same asset-0 reserve, and the
    two payments add up to at least the single payment. *)
Theorem buy0_split_costs_more (s : PartialAmm) (a b : Z)
  (Ha : a < r0 s) (Hb : b < r0 s - a) :
  exists x s1 y s2 z s3,
    buy0 a s = (Ok x, s1) /\
    buy0 b s1 = (Ok y, s2) /\
    buy0 (a + b) s = (Ok z, s3) /\
    r0 s2 = r0 s3 /\
    r1 s3 <= r1 s2 /\
    z <= x + y.
Proof.
  pose proof (buy0_run s a ltac:(lia)) as Hfirst.
  pose proof (buy0_run s (a + b) ltac:(lia)) as Honce.
  pose proof (divup_bracket (r0 s * r1 s) (r0 s - a) ltac:(lia)) as Hc1.
  set (c1 := (r0 s * r1 s + (r0 s - a - 1)) / (r0 s - a)) in *.
  set (s1 := {| id := id s; r0 := r0 s - a; r1 := c1 |}) in *.
  pose proof (buy0_run s1 b ltac:(cbn; lia)) as Hsecond.
  cbn [r0 r1 id] in Hsecond.
  do 6 eexists.
  split; [exact Hfirst|]. split; [exact Hsecond|]. split; [exact Honce|].
  subst s1. cbn [r0 r1].
  assert (Hmono : (r0 s * r1 s + (r0 s - (a + b) - 1)) / (r0 s - (a + b)) <=
                  ((r0 s - a) * c1 + (r0 s - a - b - 1)) / (r0 s - a - b)).
  { replace (r0 s - (a + b)) with (r0 s - a - b) by lia.
    apply Z.div_le_mono; lia. }
  split; [lia|]. split; lia.
Qed.

Lemma buy0_split_costs_more_witness :
  let s := init "0123" 10 10 in
  3 < r0 s /\ 3 < r0 s - 3 /\
  exists x s1 y s2 z s3,
    buy0 3 s = (Ok x, s1) /\
    buy0 3 s1 = (Ok y, s2) /\
    buy0 (3 + 3) s = (Ok z, s3) /\
    r0 s2 = r0 s3 /\
    r1 s3 <= r1 s2 /\
    z <= x + y.
Proof.
  cbv zeta. split; [reflexivity|]. split; [reflexivity|].
  apply (buy0_split_costs_more (init "0123" 10 10) 3 3); reflexivity.
Defined.

(** X12. Selling [a] and then [b] never pays less than selling [a + b] at
    once: with a positive asset-0 reserve and positive amounts, when the
    three sales go through, both routes leave the same asset-0 reserve and
    the two payouts add up to at least the single payout. *)
Theorem sell0_split_pays_more (s s1 s2 s3 : PartialAmm) (a b x y z : Z)
  (H0 : 0 < r0 s) (Ha : 0 < a) (Hb : 0 < b)
  (Hfirst : sell0 a s = (Ok x, s1))
  (Hsecond : sell0 b s1 = (Ok y, s2))
  (Honce : sell0 (a + b) s = (Ok z, s3)) :
  r0 s2 = r0 s3 /\
  r1 s2 <= r1 s3 /\
  z <= x + y.
Proof.
  rewrite sell0_run in Hfirst by lia. cbv zeta in Hfirst.
  rewrite sell0_run in Honce by lia. cbv zeta in Honce.
  pose proof (floor_bracket (r0 s * r1 s) (r0 s + a) ltac:(lia)) as Hq1.
  set (q1 := r0 s * r1 s / (r0 s + a)) in *.
  destruct (Z.ltb_spec 0 q1); [|discriminate].
  injection Hfirst as <- <-.
  rewrite sell0_run in Hsecond by (cbn; lia).
  cbv zeta in Hsecond. cbn [r0 r1 id] in Hsecond.
  assert (Hmono : (r0 s + a) * q1 / (r0 s + a + b) <=
                  r0 s * r1 s / (r0 s + (a + b))).
  { replace (r0 s + (a + b)) with (r0 s + a + b) by lia.
    apply Z.div_le_mono; lia. }
  set (q2 := (r0 s + a) * q1 / (r0 s + a + b)) in *.
  set (q3 := r0 s * r1 s / (r0 s + (a + b))) in *.
  destruct (Z.ltb_spec 0 q2); [|discriminate].
  destruct (Z.ltb_spec 0 q3); [|discriminate].
  injection Hsecond as <- <-. injection Honce as <- <-.
  cbn [r0 r1]. split; [lia|]. split; lia.
Qed.

Lemma sell0_split_pays_more_witness :
  let s := init "0123" 10 10 in
  let s1 := {| id := "0123"; r0 := 13; r1 := 7 |} in
  let s2 := {| id := "0123"; r0 := 16; r1 := 5 |} in
  let s3 := {| id := "0123"; r0 := 16; r1 := 6 |} in
  0 < r0 s /\ 0 < 3 /\
  sell0 3 s = (Ok 3, s1) /\ sell0 3 s1 = (Ok 2, s2) /\
  sell0 (3 + 3) s = (Ok 4, s3) /\
  r0 s2 = r0 s3 /\ r1 s2 <= r1 s3 /\ 4 <= 3 + 2.
Proof.
  cbv zeta.
  split; [reflexivity|]. split; [reflexivity|].
  split; [reflexivity|]. split; [reflexivity|]. split; [reflexivity|].
  exact (sell0_split_pays_more (init "0123" 10 10)
           {| id := "0123"; r0 := 13; r1 := 7 |}
           {| id := "0123"; r0 := 16; r1 := 5 |}
           {| id := "0123"; r0 := 16; r1 := 6 |} 3 3 3 2 4
           ltac:(reflexivity) ltac:(reflexivity) ltac:(reflexivity)
           ltac:(reflexivity) ltac:(reflexivity) ltac:(reflexivity)).
Defined.

(** ** Selling and buying back *)

(** X13. With positive reserves, a positive amount and a product that
    covers [r0 + a0], [sell0 a0] followed by [buy0 a0] both go through and
    restore [r0]; the buy charges no more than the sale paid, so [r1] ends
    no larger than it started, lower by less than [(r0 + a0) / r0]. *)
Theorem sell0_then_buy0 (s : PartialAmm) (a0 : Z)
  (H0 : 0 < r0 s) (H1 : 0 < r1 s) (Ha : 0 < a0)
  (Hk : r0 s + a0 <= r0 s * r1 s) :
  exists p s1 c s2,
    sell0 a0 s = (Ok p, s1) /\
    buy0 a0 s1 = (Ok c, s2) /\
    r0 s2 = r0 s /\
    c <= p /\
    r1 s2 <= r1 s /\
    r0 s * (r1 s - r1 s2) < r0 s + a0.
Proof.
  pose proof (sell0_run s a0 ltac:(lia)) as Hsell. cbv zeta in Hsell.
  pose proof (floor_bracket (r0 s * r1 s) (r0 s + a0) ltac:(lia)) as Hq.
  set (q := r0 s * r1 s / (r0 s + a0)) in *.
  destruct (Z.ltb_spec 0 q); [|nia].
  set (s1 := {| id := id s; r0 := r0 s + a0; r1 := q |}) in *.
  pose proof (buy0_run s1 a0 ltac:(cbn; lia)) as Hbuy.
  do 4 eexists. split; [exact Hsell|]. split; [exact Hbuy|].
  subst s1. cbn [r0 r1].
  replace (r0 s + a0 - a0) with (r0 s) by lia.
  pose proof (divup_bracket ((r0 s + a0) * q) (r0 s) H0) as Hc.
  set (c := ((r0 s + a0) * q + (r0 s - 1)) / r0 s) in *.
  split; [reflexivity|]. split; [nia|]. split; nia.
Qed.

Lemma sell0_then_buy0_witness :
  let s := init "0123" 2 10 in
  0 < r0 s /\ 0 < r1 s /\ 0 < 5 /\ r0 s + 5 <= r0 s * r1 s /\
  sell0 5 s = (Ok 8, {| id := "0123"; r0 := 7; r1 := 2 |}) /\
  buy0 5 {| id := "0123"; r0 := 7; r1 := 2 |} =
  (Ok 5, {| id := "0123"; r0 := 2; r1 := 7 |}) /\
  exists p s1 c s2,
    sell0 5 s = (Ok p, s1) /\
    buy0 5 s1 = (Ok c, s2) /\
    r0 s2 = r0 s /\
    c <= p /\
    r1 s2 <= r1 s /\
    r0 s * (r1 s - r1 s2) < r0 s + 5.
Proof.
  cbv zeta.
  split; [reflexivity|]. split; [reflexivity|]. split; [reflexivity|].
  split; [cbn; lia|]. split; [reflexivity|]. split; [reflexivity|].
  apply (sell0_then_buy0 (init "0123" 2 10) 5); cbn; lia.
Defined.

(** ** Amounts the methods do not check *)

(** X14. [sell0] does not check the sign of its amount.  With positive
    reserves and [0 < a0 < r0], [sell0 (- a0)] goes through and removes
    [a0] from the asset-0 reserve like [buy0 a0], for a payment rounded
    down where [buy0] rounds up: the payment is the one of [buy0 a0] or one
    unit less, and the product of the reserves does not grow. *)
Theorem sell0_negative_amount (s : PartialAmm) (a0 : Z)
  (H0 : 0 < r0 s) (H1 : 0 < r1 s) (Ha : 0 < a0 < r0 s) :
  exists b sb a1 ss,
    buy0 a0 s = (Ok b, sb) /\
    sell0 (- a0) s = (Ok a1, ss) /\
    r0 ss = r0 sb /\
    b - 1 <= - a1 <= b /\
    r1 ss = r1 s + - a1 /\
    k ss <= k s.
Proof.
  pose proof (buy0_run s a0 ltac:(lia)) as Hbuy.
  pose proof (sell0_run s (- a0) ltac:(lia)) as Hsell. cbv zeta in Hsell.
  replace (r0 s + - a0) with (r0 s - a0) in Hsell by lia.
  pose proof (floor_bracket (r0 s * r1 s) (r0 s - a0) ltac:(lia)) as Hq.
  pose proof (divup_bracket (r0 s * r1 s) (r0 s - a0) ltac:(lia)) as Hc.
  set (q := r0 s * r1 s / (r0 s - a0)) in *.
  set (c := (r0 s * r1 s + (r0 s - a0 - 1)) / (r0 s - a0)) in *.
  destruct (Z.ltb_spec 0 q); [|nia].
  do 4 eexists. split; [exact Hbuy|]. split; [exact Hsell|].
  unfold k. cbn [r0 r1].
  split; [reflexivity|]. split; [nia|]. split; [lia|nia].
Qed.

Lemma sell0_negative_amount_witness :
  let s := init "0123" 10000 10000 in
  0 < r0 s /\ 0 < r1 s /\ 0 < 90 < r0 s /\
  buy0 90 s = (Ok 91, {| id := "0123"; r0 := 9910; r1 := 10091 |}) /\
  sell0 (- 90) s = (Ok (- 90), {| id := "0123"; r0 := 9910; r1 := 10090 |}) /\
  exists b sb a1 ss,
    buy0 90 s = (Ok b, sb) /\
    sell0 (- 90) s = (Ok a1, ss) /\
    r0 ss = r0 sb /\
    b - 1 <= - a1 <= b /\
    r1 ss = r1 s + - a1 /\
    k ss <= k s.
Proof.
  cbv zeta.
  split; [reflexivity|]. split; [reflexivity|]. split; [cbn; lia|].
  split; [reflexivity|]. split; [reflexivity|].
  apply (sell0_negative_amount (init "0123" 10000 10000) 90); cbn; lia.
Defined.

(** X15. [buy0] does not check the sign of its amount either.  With
    positive reserves and [a0 > 0], [buy0 (- a0)] always goes through, adds
    [a0] to the asset-0 reserve and pays out [r1 - ceil (k / (r0 + a0))],
    leaving at least one unit of asset-1; whenever [sell0 a0] goes through,
    that payout is the one of [sell0 a0] or one unit less. *)
Theorem buy0_negative_amount (s : PartialAmm) (a0 : Z)
  (H0 : 0 < r0 s) (H1 : 0 < r1 s) (Ha : 0 < a0) :
  exists a1 sb,
    buy0 (- a0) s = (Ok a1, sb) /\
    r0 sb = r0 s + a0 /\
    r1 sb = r1 s + a1 /\
    r1 sb = ceil_ratio (k s) (r0 s + a0) /\
    a1 <= 0 /\
    1 <= r1 sb /\
    (forall p ss, sell0 a0 s = (Ok p, ss) -> p - 1 <= - a1 <= p).
Proof.
  pose proof (buy0_run s (- a0) ltac:(lia)) as Hbuy.
  replace (r0 s - - a0) with (r0 s + a0) in Hbuy by lia.
  pose proof (divup_bracket (r0 s * r1 s) (r0 s + a0) ltac:(lia)) as Hc.
  pose proof (ceil_ratio_divup (k s) (r0 s + a0) ltac:(lia)) as Hceil.
  unfold k in Hceil.
  set (c := (r0 s * r1 s + (r0 s + a0 - 1)) / (r0 s + a0)) in *.
  do 2 eexists. split; [exact Hbuy|]. cbn [r0 r1].
  split; [reflexivity|]. split; [lia|]. split; [unfold k; lia|].
  split; [nia|]. split; [nia|].
  intros p ss Hsell.
  rewrite sell0_run in Hsell by lia. cbv zeta in Hsell.
  pose proof (floor_bracket (r0 s * r1 s) (r0 s + a0) ltac:(lia)) as Hq.
  set (q := r0 s * r1 s / (r0 s + a0)) in *.
  destruct (Z.ltb_spec 0 q); [|discriminate].
  injection Hsell as <- <-. nia.
Qed.

Lemma buy0_negative_amount_witness :
  let s := init "0123" 10 1 in
  0 < r0 s /\ 0 < r1 s /\ 0 < 1 /\
  sell0 1 s = (Raise (RuntimeError "a1 (1) >= r1 (1)"), s) /\
  buy0 (- 1) s = (Ok 0, {| id := "0123"; r0 := 11; r1 := 1 |}) /\
  exists a1 sb,
    buy0 (- 1) s = (Ok a1, sb) /\ r0 sb = r0 s + 1 /\ 1 <= r1 sb.
Proof.
  cbv zeta.
  split; [reflexivity|]. split; [reflexivity|]. split; [reflexivity|].
  split; [reflexivity|]. split; [reflexivity|].
  destruct (buy0_negative_amount (init "0123" 10 1) 1
              ltac:(reflexivity) ltac:(reflexivity) ltac:(reflexivity))
    as (a1 & sb & Hb & Hr0 & _ & _ & _ & Hr1 & _).
  exists a1, sb. split; [exact Hb|]. split; [exact Hr0|exact Hr1].
Defined.

(** X16. With positive reserves, a trade of amount zero goes through,
    returns zero and leaves the pool as it was, for [buy0] and for
    [sell0]. *)
Theorem zero_amount_trades (s : PartialAmm)
  (H0 : 0 < r0 s) (H1 : 0 < r1 s) :
  buy0 0 s = (Ok 0, s) /\ sell0 0 s = (Ok 0, s).
Proof.
  split.
  - rewrite buy0_run by lia.
    replace (r0 s - 0) with (r0 s) by lia.
    assert (Hc : (r0 s * r1 s + (r0 s - 1)) / r0 s = r1 s).
    { symmetry. apply Z.div_unique with (r := r0 s - 1); lia. }
    rewrite Hc. destruct s as [i x y]. cbn [r0 r1 id] in *.
    f_equal. f_equal. lia.
  - rewrite sell0_run by lia. cbv zeta.
    replace (r0 s + 0) with (r0 s) by lia.
    assert (Hq : r0 s * r1 s / r0 s = r1 s).
    { rewrite Z.mul_comm. apply Z.div_mul. lia. }
    rewrite Hq. destruct (Z.ltb_spec 0 (r1 s)); [|lia].
    destruct s as [i x y]. cbn [r0 r1 id] in *.
    f_equal. f_equal. lia.
Qed.

Lemma zero_amount_trades_witness :
  let s := init "0123" 10 7 in
  0 < r0 s /\ 0 < r1 s /\ buy0 0 s = (Ok 0, s) /\ sell0 0 s = (Ok 0, s).
Proof.
  cbv zeta. split; [reflexivity|]. split; [reflexivity|].
  exact (zero_amount_trades (init "0123" 10 7)
           ltac:(reflexivity) ltac:(reflexivity)).
Defined.

(** X17. With positive reserves and a positive amount, [sell0 a0] is
    refused with the reserve-exhausted message exactly when the product of
    the reserves is smaller than [r0 + a0], and it then leaves the pool as
    it was; so a pool holding one unit of asset-1 refuses every sale. *)
Theorem sell0_refused_iff (s : PartialAmm) (a0 : Z)
  (H0 : 0 < r0 s) (H1 : 0 < r1 s) (Ha : 0 < a0) :
  ((exists e, sell0 a0 s = (Raise e, s) /\ ReserveExhausted e) <->
   r0 s * r1 s < r0 s + a0) /\
  ((exists a1 s', sell0 a0 s = (Ok a1, s')) <-> r0 s + a0 <= r0 s * r1 s) /\
  (r1 s = 1 -> exists e, sell0 a0 s = (Raise e, s) /\ ReserveExhausted e).
Proof.
  rewrite sell0_run by lia. cbv zeta.
  pose proof (floor_bracket (r0 s * r1 s) (r0 s + a0) ltac:(lia)) as Hq.
  set (q := r0 s * r1 s / (r0 s + a0)) in *.
  assert (Hr : ReserveExhausted
                 (RuntimeError
                    ("a1 (" ++ str (r1 s - q) ++ ") >= r1 ("
                     ++ str (r1 s) ++ ")")))
    by now exists (r1 s - q), (r1 s).
  destruct (Z.ltb_spec 0 q) as [Hpos|Hnp].
  - split; [|split].
    + split; [intros (e & He & _); discriminate|nia].
    + split; [nia|]. intros _. now do 2 eexists.
    + intros Hone. nia.
  - split; [|split].
    + split; [nia|]. intros _. eexists. split; [reflexivity|exact Hr].
    + split; [intros (a1 & s' & He); discriminate|nia].
    + intros _. eexists. split; [reflexivity|exact Hr].
Qed.

Lemma sell0_refused_iff_witness :
  let s := init "0123" 10 1 in
  0 < r0 s /\ 0 < r1 s /\ 0 < 1 /\
  exists e, sell0 1 s = (Raise e, s) /\ ReserveExhausted e.
Proof.
  cbv zeta.
  split; [reflexivity|]. split; [reflexivity|]. split; [reflexivity|].
  destruct (sell0_refused_iff (init "0123" 10 1) 1
              ltac:(reflexivity) ltac:(reflexivity) ltac:(reflexivity))
    as (_ & _ & Hone).
  apply Hone. reflexivity.
Defined.

(** ** A donation that raises *)

(** X18. [donate0] writes [r0] before it reads the price, and the write is
    not undone: [donate0 (- r0)] raises [ZeroDivisionError] and leaves the
    asset-0 reserve at zero.  On that pool [price0] and [sell0 0] raise
    [ZeroDivisionError] and every [buy0] of a non-negative amount is
    refused. *)
Theorem donate0_failure_is_kept (s : PartialAmm) (a0 : Z)
  (Hz : r0 s + a0 = 0) :
  let s' := {| id := id s; r0 := 0; r1 := r1 s |} in
  donate0 a0 s = (Raise ZeroDivisionError, s') /\
  price0 s' = (Raise ZeroDivisionError, s') /\
  sell0 0 s' = (Raise ZeroDivisionError, s') /\
  (forall a, 0 <= a ->
     exists e, buy0 a s' = (Raise e, s') /\ InsufficientReserve e).
Proof.
  cbv zeta. split; [|split; [|split]].
  - rewrite donate0_eq, Hz. reflexivity.
  - reflexivity.
  - reflexivity.
  - intros a Hpos. rewrite buy0_eq, quoteBuy0_at_or_above by (cbn; lia).
    cbn [fst r0]. eexists. split; [reflexivity|]. now exists a, 0.
Qed.

Lemma donate0_failure_is_kept_witness :
  let s := init "0123" 10 5 in
  r0 s + -10 = 0 /\
  donate0 (-10) s =
  (Raise ZeroDivisionError, {| id := "0123"; r0 := 0; r1 := 5 |}).
Proof.
  cbv zeta. split; [reflexivity|].
  exact (proj1 (donate0_failure_is_kept (init "0123" 10 5) (-10)
                  ltac:(reflexivity))).
Defined.

(** ** Construction *)

Lemma substring_whole (s : string) :
  forall m : nat, (length s <= m)%nat -> substring 0 m s = s.
Proof.
  induction s as [|c s IH]; intros [|m] Hm; cbn in *;
    try reflexivity; try lia.
  f_equal. apply IH. lia.
Qed.

Lemma substring_to_end (s : string) :
  forall n m : nat, (length s <= n + m)%nat ->
  exists pre,
    s = pre ++ substring n m s /\ length pre = Nat.min n (length s).
Proof.
  induction s as [|c s IH]; intros n m Hnm.
  - exists EmptyString. destruct n, m; cbn; split; reflexivity.
  - destruct n as [|n].
    + exists EmptyString. rewrite substring_whole by lia.
      split; reflexivity.
    + destruct (IH n m ltac:(cbn in Hnm; lia)) as (pre & Hs & Hlen).
      exists (String c pre). cbn. split; [now rewrite <- Hs|].
      now rewrite Hlen.
Qed.

Lemma length_append (s t : string) :
  length (s ++ t) = (length s + length t)%nat.
Proof. induction s as [|c s IH]; cbn; [reflexivity|now rewrite IH]. Qed.

(** X19. [PartialAmm(r0, r1)] keeps as [id] the end of the generated
    string: its last four characters, or all of it when it is shorter; the
    reserves are stored as given, without any check. *)
Theorem init_id_is_suffix (uuid : string) (x y : Z) :
  (exists pre, uuid = pre ++ id (init uuid x y)) /\
  length (id (init uuid x y)) = Nat.min 4 (length uuid) /\
  r0 (init uuid x y) = x /\
  r1 (init uuid x y) = y.
Proof.
  cbn [init id r0 r1].
  destruct (substring_to_end uuid (length uuid - 4) 4 ltac:(lia))
    as (pre & Hs & Hlen).
  split; [now exists pre|]. split; [|split; reflexivity].
  apply (f_equal length) in Hs. rewrite length_append in Hs. lia.
Qed.
